(** * pyexchange: the KuCoin adapter ([pyexchange/kucoin.py])

    A shallow embedding of the value types [Order] and [Trade] and of the
    [KucoinApi] facade, followed by the properties of the mapping layer.

    Python values coming from the exchange client are dynamically typed, so
    they are embedded as a small universe [pyval].  Everything that lives
    in another package (pymaker's [Wad], the builtins [float], [int] and
    [%]-formatting, the constants of the kucoin [Client]) is collected in
    the interface [Runtime]; the remote behaviour of the [Client] object is
    an oracle that the adapter queries while a log of the calls is kept. *)

From Stdlib Require Import ZArith String Ascii List Lia DecimalString.
From Stdlib Require Import PrimFloat Uint63 FloatOps SpecFloat.
From stdpp Require Import base strings gmap list.

Set Warnings "-register-all".
Local Open Scope string_scope.
Local Open Scope Z_scope.

(** ** Python values and exceptions *)

(** The JSON-like values the client hands back.  A [PDict] keeps its items
    in insertion order, as a Python dict does; its keys are distinct. *)
Inductive pyval : Type :=
  | PNone
  | PBool (b : bool)
  | PInt (z : Z)
  | PFloat (f : float)
  | PStr (s : string)
  | PList (items : list pyval)
  | PDict (items : list (string * pyval)).

(** Instances of [Exception] that can travel through the adapter.  The
    last one stands for whatever the remote client raises on its own. *)
Inductive exn : Type :=
  | AssertionError
  | KeyError (key : string)
  | IndexError
  | TypeError
  | ValueError
  | OverflowError
  | RemoteError (msg : string).

Inductive result (A : Type) : Type :=
  | Ok (a : A)
  | Raise (e : exn).
Arguments Ok {A} a.
Arguments Raise {A} e.

Definition rbind {A B} (r : result A) (k : A -> result B) : result B :=
  match r with
  | Ok a => k a
  | Raise e => Raise e
  end.

Definition rmap {A B} (f : A -> B) (r : result A) : result B :=
  rbind r (fun a => Ok (f a)).

#[global] Instance result_ret : MRet result := fun _ a => Ok a.
#[global] Instance result_bind : MBind result := fun _ _ k r => rbind r k.
#[global] Instance result_fmap : FMap result := fun _ _ f r => rmap f r.

(** [list(map(f, xs))] for an [f] that may raise: the first failure wins. *)
Fixpoint map_result {A B} (f : A -> result B) (xs : list A) : result (list B) :=
  match xs with
  | [] => Ok []
  | x :: xs' =>
      y ← f x;
      ys ← map_result f xs';
      Ok (y :: ys)
  end.

(** Subscription [v[key]] with a string key. *)
Fixpoint assoc (key : string) (items : list (string * pyval)) : option pyval :=
  match items with
  | [] => None
  | (k, v) :: rest => if String.eqb k key then Some v else assoc key rest
  end.

Definition getitem (v : pyval) (key : string) : result pyval :=
  match v with
  | PDict items =>
      match assoc key items with
      | Some x => Ok x
      | None => Raise (KeyError key)
      end
  | _ => Raise TypeError
  end.

(** Subscription [v[i]] with a non-negative integer literal; a dict of
    string keys has no such key. *)
Definition getindex (v : pyval) (i : nat) : result pyval :=
  match v with
  | PList items =>
      match nth_error items i with
      | Some x => Ok x
      | None => Raise IndexError
      end
  | PStr s =>
      match String.get i s with
      | Some c => Ok (PStr (String c EmptyString))
      | None => Raise IndexError
      end
  | PDict _ => Raise (KeyError (NilEmpty.string_of_uint (Nat.to_uint i)))
  | _ => Raise TypeError
  end.

(** The items [map] walks over when handed [v]. *)
Definition iterate (v : pyval) : result (list pyval) :=
  match v with
  | PList items => Ok items
  | PDict items => Ok (List.map (fun kv => PStr (fst kv)) items)
  | PStr s => Ok (List.map (fun c => PStr (String c EmptyString)) (list_ascii_of_string s))
  | _ => Raise TypeError
  end.

(** [v == 'literal'] *)
Definition eq_str (v : pyval) (lit : string) : bool :=
  match v with
  | PStr s => String.eqb s lit
  | _ => false
  end.

(** [isinstance(v, int)]: [bool] is a subclass of [int]. *)
Definition isinstance_int (v : pyval) : bool :=
  match v with
  | PInt _ | PBool _ => true
  | _ => false
  end.

Definition isinstance_str (v : pyval) : bool :=
  match v with
  | PStr _ => true
  | _ => false
  end.

Definition is_None (v : pyval) : bool :=
  match v with
  | PNone => true
  | _ => false
  end.

Definition assert (b : bool) : result unit :=
  if b then Ok tt else Raise AssertionError.

(** ** What the adapter imports *)

Class Runtime : Type := {
  (** [pymaker.Wad], an 18-decimal fixed-point number *)
  Wad : Type;
  (** [Wad.__mul__] *)
  Wad_mul : Wad -> Wad -> Wad;
  (** [Wad.from_number] *)
  Wad_from_number : pyval -> result Wad;
  (** [Wad.__float__] *)
  Wad_float : Wad -> float;
  (** the builtin [float(v)] *)
  py_float : pyval -> result float;
  (** the builtin [int(x)] on a float *)
  py_int : float -> result Z;
  (** [fmt % x] for a float [x] *)
  format_percent : string -> float -> string;
  (** [Client.SIDE_SELL] and [Client.SIDE_BUY] *)
  SIDE_SELL : string;
  SIDE_BUY : string
}.

(** ** Order *)

Module Order.
Section WithRuntime.
Context `{RT : Runtime}.

Record t : Type := mk {
  order_id : pyval;
  pair : string;
  is_sell : bool;
  price : Wad;
  amount : Wad
}.

Definition sell_to_buy_price (self : t) : Wad := price self.

Definition buy_to_sell_price (self : t) : Wad := price self.

Definition remaining_buy_amount (self : t) : Wad :=
  if is_sell self then Wad_mul (amount self) (price self) else amount self.

Definition remaining_sell_amount (self : t) : Wad :=
  if is_sell self then amount self else Wad_mul (amount self) (price self).

(** Keyword arguments are evaluated left to right; the assertions of
    [__init__] on [pair], [is_sell], [price] and [amount] hold by typing. *)
Definition from_list (item : pyval) (pair : string) (sell : bool) : result t :=
  oid ← getindex item 5;
  p2 ← getindex item 2;
  price ← Wad_from_number p2;
  p3 ← getindex item 3;
  amount ← Wad_from_number p3;
  Ok (mk oid pair sell price amount).
End WithRuntime.
End Order.

(** ** Trade *)

Module Trade.
Section WithRuntime.
Context `{RT : Runtime}.

Record t : Type := mk {
  trade_id : pyval;
  order_id : pyval;
  timestamp : Z;
  pair : string;
  is_sell : bool;
  price : Wad;
  amount : Wad
}.

(** [Trade.__init__]: the assertions on [timestamp], [pair], [is_sell],
    [price] and [amount] hold by typing; the two on the identifiers are
    checked, in the order of the source. *)
Definition __init__ (trade_id order_id : pyval) (timestamp : Z) (pair : string)
    (is_sell : bool) (price amount : Wad) : result t :=
  _ ← assert (isinstance_int trade_id || is_None trade_id);
  _ ← assert (isinstance_str order_id || is_None order_id);
  Ok (mk trade_id order_id timestamp pair is_sell price amount).

(** [int(float(v)) // 1000] *)
Definition seconds_of_millis (v : pyval) : result Z :=
  f ← py_float v;
  ms ← py_int f;
  Ok (ms / 1000).

Definition from_dict (pair : string) (trade : pyval) : result t :=
  tid ← getitem trade "id";
  oid ← getitem trade "orderOid";
  created ← getitem trade "createdAt";
  ts ← seconds_of_millis created;
  dir ← getitem trade "direction";
  deal ← getitem trade "dealPrice";
  price ← Wad_from_number deal;
  amt ← getitem trade "amount";
  amount ← Wad_from_number amt;
  __init__ tid oid ts pair (eq_str dir "SELL") price amount.

Definition from_list (pair : string) (trade : pyval) : result t :=
  oid ← getindex trade 5;
  created ← getindex trade 0;
  ts ← seconds_of_millis created;
  dir ← getindex trade 1;
  p2 ← getindex trade 2;
  price ← Wad_from_number p2;
  p3 ← getindex trade 3;
  amount ← Wad_from_number p3;
  __init__ PNone oid ts pair (eq_str dir "SELL") price amount.
End WithRuntime.
End Trade.

(** ** The external client *)

Module Client.

(** [kucoin.client.Client(api_key, api_secret)]: the object is known by
    what it was constructed from. *)
Record t : Type := new {
  api_key : string;
  api_secret : string
}.

(** The remote methods the adapter calls, with their arguments. *)
Inductive call : Type :=
  | get_trading_markets
  | get_tick (pair : string)
  | get_all_balances
  | get_total_balance (fiat : string)
  | get_coin_balance (coin : string)
  | get_user
  | get_order_book (pair : string) (limit : pyval)
  | get_active_orders (pair : string)
  | create_order (pair side price amount : string)
  | cancel_order (order_id side pair : string)
  | get_symbol_dealt_orders (pair : string) (page limit : Z)
  | get_recent_orders (pair : string) (limit : Z).

(** What a client answers to a call, given the calls made before it. *)
Definition behaviour : Type := t -> list call -> call -> result pyval.

End Client.

(** ** Computations that talk to the client

    A computation receives the log of the calls made so far and gives back
    its outcome together with the extended log. *)

Definition io (A : Type) : Type := list Client.call -> result A * list Client.call.

Definition ret {A} (a : A) : io A := fun log => (Ok a, log).

Definition lift {A} (r : result A) : io A := fun log => (r, log).

Definition bind {A B} (m : io A) (k : A -> io B) : io B :=
  fun log =>
    match m log with
    | (Ok a, log') => k a log'
    | (Raise e, log') => (Raise e, log')
    end.

(** [try: m  except Exception as e: handler(e)] *)
Definition try_except {A} (m : io A) (handler : exn -> io A) : io A :=
  fun log =>
    match m log with
    | (Ok a, log') => (Ok a, log')
    | (Raise e, log') => handler e log'
    end.

#[global] Instance io_ret : MRet io := @ret.
#[global] Instance io_bind : MBind io := fun _ _ k m => bind m k.

(** [str.split(sep)] for a separator of one character. *)
Fixpoint split (sep : ascii) (s : string) : list string :=
  match s with
  | EmptyString => [EmptyString]
  | String c rest =>
      if Ascii.eqb c sep then EmptyString :: split sep rest
      else
        match split sep rest with
        | [] => [String c EmptyString]
        | piece :: pieces => String c piece :: pieces
        end
  end.

(** [sep not in s] *)
Fixpoint free_of (sep : ascii) (s : string) : bool :=
  match s with
  | EmptyString => true
  | String c rest => negb (Ascii.eqb c sep) && free_of sep rest
  end.

(** [sep.join(pieces)] *)
Fixpoint join (sep : ascii) (pieces : list string) : string :=
  match pieces with
  | [] => EmptyString
  | p :: rest =>
      match rest with
      | [] => p
      | _ :: _ => p ++ String sep (join sep rest)
      end
  end.

(** [coins[i]] on the list of pieces. *)
Definition piece (coins : list string) (i : nat) : result string :=
  match nth_error coins i with
  | Some c => Ok c
  | None => Raise IndexError
  end.

(** ** KucoinApi *)

Module KucoinApi.
Section WithClient.
Context `{RT : Runtime}.
Variable remote : Client.behaviour.

Record t : Type := mk {
  api_server : string;
  api_key : string;
  secret_key : string;
  timeout : float;
  client : Client.t
}.

(** The four assertions hold by typing; [requests_params] is not used. *)
Definition __init__ (api_server api_key secret_key : string) (timeout : float)
    (requests_params : pyval) : t :=
  mk api_server api_key secret_key timeout (Client.new api_key secret_key).

(** [self.client.method(args)] *)
Definition invoke (self : t) (c : Client.call) : io pyval :=
  fun log => (remote (client self) log c, (log ++ [c])%list).

Definition get_markets (self : t) : io pyval :=
  invoke self Client.get_trading_markets.

Definition ticker (self : t) (pair : string) : io pyval :=
  invoke self (Client.get_tick pair).

Definition get_balances (self : t) : io pyval :=
  invoke self Client.get_all_balances.

Definition get_fiat_balance (self : t) (fiat : string) : io pyval :=
  invoke self (Client.get_total_balance fiat).

Definition get_balance (self : t) (coin : string) : io pyval :=
  invoke self (Client.get_coin_balance coin).

Definition get_user_info (self : t) : io pyval :=
  invoke self Client.get_user.

Definition order_book (self : t) (pair : string) (limit : pyval) : io pyval :=
  invoke self (Client.get_order_book pair limit).

Definition get_orders (self : t) (pair : string) : io (list Order.t) :=
  orders ← invoke self (Client.get_active_orders pair);
  sells ← lift (getitem orders SIDE_SELL);
  sell_items ← lift (iterate sells);
  sell_orders ← lift (map_result (fun item => Order.from_list item pair true) sell_items);
  buys ← lift (getitem orders SIDE_BUY);
  buy_items ← lift (iterate buys);
  buy_orders ← lift (map_result (fun item => Order.from_list item pair false) buy_items);
  ret ((sell_orders ++ buy_orders)%list).

Definition _get_precision (coin : string) : result string :=
  let table : gmap string string :=
    {[ "ETH" := "%.7f";
       "USDT" := "%.6f";
       "MKR" := "%.4f";
       "BTC" := "%.7f";
       "DAI" := "%.4f" ]} in
  match table !! coin with
  | Some fmt => Ok fmt
  | None => Raise (KeyError coin)
  end.

Definition place_order (self : t) (pair : string) (is_sell : bool)
    (price amount : Wad) : io pyval :=
  let side := if is_sell then SIDE_SELL else SIDE_BUY in
  let coins := split "-" pair in
  quote ← lift (piece coins 1);
  price_fmt ← lift (_get_precision quote);
  let price := format_percent price_fmt (Wad_float price) in
  base ← lift (piece coins 0);
  amount_fmt ← lift (_get_precision base);
  let amount := format_percent amount_fmt (Wad_float amount) in
  result ← invoke self (Client.create_order pair side price amount);
  order_id ← lift (getitem result "orderOid");
  ret order_id.

Definition cancel_order (self : t) (order_id : string) (is_sell : bool)
    (pair : string) : io bool :=
  let side := if is_sell then SIDE_SELL else SIDE_BUY in
  try_except
    (_ ← invoke self (Client.cancel_order order_id side pair);
     ret true)
    (fun e => ret false).

Definition get_trades (self : t) (pair : string) (page_number : Z)
    : io (list Trade.t) :=
  let page_number := page_number - 1 in
  let limit := 100 in
  result ← invoke self (Client.get_symbol_dealt_orders pair page_number limit);
  datas ← lift (getitem result "datas");
  items ← lift (iterate datas);
  lift (map_result (fun item => Trade.from_dict pair item) items).

Definition get_all_trades (self : t) (pair : string) (page_number : Z)
    : io (list Trade.t) :=
  _ ← lift (assert (page_number =? 1));
  result ← invoke self (Client.get_recent_orders pair 50);
  items ← lift (iterate result);
  lift (map_result (fun item => Trade.from_list pair item) items).

End WithClient.
End KucoinApi.

(** ** The precision table, as the specification words it *)

(** Decimal places per asset. *)
Definition precision_table : list (string * nat) :=
  [("ETH", 7%nat); ("USDT", 6%nat); ("MKR", 4%nat); ("BTC", 7%nat); ("DAI", 4%nat)].

Fixpoint places_in (table : list (string * nat)) (asset : string) : option nat :=
  match table with
  | [] => None
  | (a, n) :: rest => if String.eqb a asset then Some n else places_in rest asset
  end.

Definition decimal_places (asset : string) : option nat :=
  places_in precision_table asset.

(** The format that renders a float with [n] digits after the point. *)
Definition fixed_point_format (n : nat) : string :=
  "%." ++ NilEmpty.string_of_uint (Nat.to_uint n) ++ "f".

(** ** A test double for the imports

    Enough of pymaker and of the builtins to run the adapter on integer
    inputs: a [Wad] is its raw 18-decimal value, and a formatted number is
    shown as the format it was rendered with. *)

Module Stub.

Definition from_number (v : pyval) : result Z :=
  match v with
  | PInt z => Ok (z * 10 ^ 18)
  | PBool b => Ok (if b then 10 ^ 18 else 0)
  | PFloat _ | PStr _ => Raise ValueError
  | _ => Raise AssertionError
  end.

Definition float_of (v : pyval) : result float :=
  match v with
  | PFloat f => Ok f
  | PInt z =>
      if (0 <=? z) && (z <? 2 ^ 53) then Ok (PrimFloat.of_uint63 (Uint63.of_Z z))
      else Raise OverflowError
  | PBool b => Ok (if b then 1%float else 0%float)
  | PStr _ => Raise ValueError
  | _ => Raise TypeError
  end.

(** Truncation towards zero. *)
Definition int_of (f : float) : result Z :=
  match Prim2SF f with
  | S754_zero _ => Ok 0
  | S754_finite s m e =>
      let mag := if 0 <=? e then Z.pos m * 2 ^ e else Z.pos m / 2 ^ (- e) in
      Ok (if s then - mag else mag)
  | S754_infinity _ => Raise OverflowError
  | S754_nan => Raise ValueError
  end.

#[local] Instance runtime : Runtime := {|
  Wad := Z;
  Wad_mul := fun a b => a * b / 10 ^ 18;
  Wad_from_number := from_number;
  Wad_float := fun w => PrimFloat.of_uint63 (Uint63.of_Z (w / 10 ^ 18));
  py_float := float_of;
  py_int := int_of;
  format_percent := fun fmt _ => fmt;
  SIDE_SELL := "SELL";
  SIDE_BUY := "BUY"
|}.

(** The adapter of the manual test. *)
Definition kucoin : KucoinApi.t :=
  KucoinApi.__init__ "https://api.kucoin.com" "key" "secret" 9.5%float PNone.

(** A client with no active orders and no trades, accepting everything. *)
Definition idle : Client.behaviour :=
  fun _ _ c =>
    match c with
    | Client.get_active_orders _ => Ok (PDict [("SELL", PList []); ("BUY", PList [])])
    | Client.get_recent_orders _ _ => Ok (PList [])
    | Client.create_order _ _ _ _ => Ok (PDict [("orderOid", PStr "5c1366ab335e7e74f25baf5d")])
    | _ => Ok PNone
    end.

(** A client whose every call fails. *)
Definition down : Client.behaviour :=
  fun _ _ _ => Raise (RemoteError "unreachable").

(** Positional records as in the comment of [Trade.from_list], with integer
    prices and amounts. *)
Definition row (ms : Z) (side : string) (price amount : Z) (oid : string) : pyval :=
  PList [PInt ms; PStr side; PInt price; PInt amount; PInt (price * amount); PStr oid].

(** A client with two asks and three bids. *)
Definition busy : Client.behaviour :=
  fun _ _ c =>
    match c with
    | Client.get_active_orders _ =>
        Ok (PDict [("SELL", PList [row 1544564526000 "SELL" 25 3 "a1";
                                   row 1544564527000 "SELL" 26 1 "a2"]);
                   ("BUY", PList [row 1544564528000 "BUY" 24 2 "b1";
                                  row 1544564529000 "BUY" 23 5 "b2";
                                  row 1544564530000 "BUY" 22 7 "b3"])])
    | _ => Ok PNone
    end.

(** The same trade as a keyed and as a positional record. *)
Definition keyed_trade : pyval :=
  PDict [("id", PInt 77); ("orderOid", PStr "5c102f2d335e7e08134edd77");
         ("createdAt", PInt 1544564526000); ("direction", PStr "SELL");
         ("dealPrice", PInt 25); ("amount", PInt 3)].

Definition positional_trade : pyval :=
  row 1544564526000 "SELL" 25 3 "5c102f2d335e7e08134edd77".

(** A client with one trade, of the account and public. *)
Definition history : Client.behaviour :=
  fun _ _ c =>
    match c with
    | Client.get_symbol_dealt_orders _ _ _ => Ok (PDict [("datas", PList [keyed_trade])])
    | Client.get_recent_orders _ _ => Ok (PList [positional_trade])
    | _ => Ok PNone
    end.

(** A positional record whose side is in lower case, made just before a
    full second. *)
Definition lowercase_row : pyval :=
  row 1544564527999 "sell" 24 2 "5c102f2d335e7e08134edd78".

(** A client whose answer has no sell side. *)
Definition one_sided : Client.behaviour :=
  fun _ _ c =>
    match c with
    | Client.get_active_orders _ => Ok (PDict [("BUY", PList [])])
    | _ => Ok PNone
    end.

(** A client whose only bid has a price that is no number. *)
Definition broken_bid : Client.behaviour :=
  fun _ _ c =>
    match c with
    | Client.get_active_orders _ =>
        Ok (PDict [("SELL", PList [row 1544564526000 "SELL" 25 3 "a1"]);
                   ("BUY", PList [PList [PInt 1544564528000; PStr "BUY"; PNone;
                                         PInt 2; PInt 48; PStr "b1"]])])
    | _ => Ok PNone
    end.

(** A client whose second ask has lost its last field. *)
Definition broken : Client.behaviour :=
  fun _ _ c =>
    match c with
    | Client.get_active_orders _ =>
        Ok (PDict [("SELL", PList [row 1544564526000 "SELL" 25 3 "a1";
                                   PList [PInt 1544564527000; PStr "SELL"; PInt 26;
                                          PInt 1; PInt 26]]);
                   ("BUY", PList [row 1544564528000 "BUY" 24 2 "b1"])])
    | _ => Ok PNone
    end.

(** A positional record whose order identifier is a number. *)
Definition numbered_row : pyval :=
  PList [PInt 1544564526000; PStr "SELL"; PInt 25; PInt 3; PInt 75; PInt 4711].

End Stub.

(** * Properties *)

(** Mapping a fallible function succeeds exactly when it succeeds on every
    item, and then the outcomes come in the order of the items. *)
Lemma map_result_Ok {A B} (f : A -> result B) (xs : list A) (ys : list B) :
  map_result f xs = Ok ys <-> Forall2 (fun x y => f x = Ok y) xs ys.
Proof.
  revert ys. induction xs as [| x xs IH]; intros ys; cbn.
  - split.
    + intros [= <-]. constructor.
    + intros H. inversion H. reflexivity.
  - split.
    + destruct (f x) as [y | e] eqn:Hx; cbn; [| discriminate].
      destruct (map_result f xs) as [ys' | e] eqn:Hxs; cbn; [| discriminate].
      intros [= <-]. constructor; [assumption | apply IH; reflexivity].
    + intros H. inversion H as [| ? y ? ys' Hx Hxs]; subst.
      rewrite Hx. cbn. apply IH in Hxs. rewrite Hxs. reflexivity.
Qed.

(** The table of the code is the table of the specification: an asset has
    a format exactly when it has a number of decimal places, and the
    format renders that many digits. *)
Lemma get_precision_decimal_places (coin : string) :
  KucoinApi._get_precision coin =
    match decimal_places coin with
    | Some n => Ok (fixed_point_format n)
    | None => Raise (KeyError coin)
    end.
Proof.
  unfold KucoinApi._get_precision, decimal_places, precision_table, places_in.
  repeat match goal with
         | |- context [String.eqb ?k coin] =>
             destruct (String.eqb_spec k coin) as [<- | ?]; [reflexivity |]
         end.
  repeat (rewrite lookup_insert_ne by assumption).
  rewrite lookup_singleton_ne by assumption.
  reflexivity.
Qed.

Lemma split_free (sep : ascii) (s : string) :
  free_of sep s = true -> split sep s = [s].
Proof.
  induction s as [| c s IH]; cbn [free_of split]; [reflexivity |].
  destruct (Ascii.eqb c sep); cbn; [discriminate |].
  intros H. rewrite (IH H). reflexivity.
Qed.

Lemma split_first (sep : ascii) (s rest : string) :
  free_of sep s = true ->
  split sep (s ++ String sep rest) = s :: split sep rest.
Proof.
  induction s as [| c s IH]; intros H.
  - change (split sep (String sep rest) = "" :: split sep rest).
    cbn [split]. rewrite Ascii.eqb_refl. reflexivity.
  - change (split sep (String c (s ++ String sep rest)) = String c s :: split sep rest).
    cbn [split free_of] in *.
    destruct (Ascii.eqb c sep); [discriminate |].
    rewrite (IH H). reflexivity.
Qed.

Lemma decimal_places_free (coin : string) (n : nat) :
  decimal_places coin = Some n -> free_of "-" coin = true.
Proof.
  unfold decimal_places, precision_table, places_in.
  repeat match goal with
         | |- context [String.eqb ?k coin] =>
             destruct (String.eqb_spec k coin) as [<- | ?]; [reflexivity |]
         end.
  discriminate.
Qed.

Ltac run_io :=
  unfold mbind, io_bind, bind, lift, mret, io_ret, ret, KucoinApi.invoke.

Section Properties.
Context `{RT : Runtime}.
Variable remote : Client.behaviour.

(** ** Order *)

(** C10: whatever the side of an order, [sell_to_buy_price] and
    [buy_to_sell_price] are both its [price]. *)
Theorem order_derived_prices (o : Order.t) :
  Order.sell_to_buy_price o = Order.price o /\
  Order.buy_to_sell_price o = Order.price o.
Proof. split; reflexivity. Qed.

(** C3: for a sell order the remaining buy amount is amount times price
    and the remaining sell amount is the amount; for a buy order the
    remaining buy amount is the amount and the remaining sell amount is
    amount times price. *)
Theorem order_remaining_amounts (o : Order.t) :
  if Order.is_sell o
  then Order.remaining_buy_amount o = Wad_mul (Order.amount o) (Order.price o) /\
       Order.remaining_sell_amount o = Order.amount o
  else Order.remaining_buy_amount o = Order.amount o /\
       Order.remaining_sell_amount o = Wad_mul (Order.amount o) (Order.price o).
Proof.
  unfold Order.remaining_buy_amount, Order.remaining_sell_amount.
  destruct (Order.is_sell o); split; reflexivity.
Qed.

(** ** Construction *)

(** C8, as the code has it: the client is built from the API key and the
    secret key alone; the base URL and the timeout are kept on the adapter
    and do not reach the client, which is the same whatever they are. *)
Theorem init_client_gets_keys_only (api_server api_key secret_key : string)
    (timeout : float) (requests_params : pyval) :
  let self := KucoinApi.__init__ api_server api_key secret_key timeout requests_params in
  KucoinApi.client self = Client.new api_key secret_key /\
  KucoinApi.api_server self = api_server /\
  KucoinApi.timeout self = timeout /\
  forall (api_server' : string) (timeout' : float) (requests_params' : pyval),
    KucoinApi.client
      (KucoinApi.__init__ api_server' api_key secret_key timeout' requests_params')
    = KucoinApi.client self.
Proof. cbn. repeat split. Qed.

(** ** Cancelling *)

(** C2: [cancel_order] makes the one cancellation call; when the client
    raises, the outcome is the boolean false and nothing is propagated,
    and when the client answers, the outcome is the boolean true. *)
Theorem cancel_order_reports_outcome (self : KucoinApi.t) (order_id : string)
    (is_sell : bool) (pair : string) (log : list Client.call) :
  let request :=
    Client.cancel_order order_id (if is_sell then SIDE_SELL else SIDE_BUY) pair in
  KucoinApi.cancel_order remote self order_id is_sell pair log =
    (match remote (KucoinApi.client self) log request with
     | Ok _ => Ok true
     | Raise _ => Ok false
     end,
     (log ++ [request])%list).
Proof.
  cbn. unfold KucoinApi.cancel_order, try_except, mbind, io_bind, bind, KucoinApi.invoke.
  destruct (remote _ _ _); reflexivity.
Qed.

(** ** Public trades *)

(** C5: with a page number other than 1, [get_all_trades] fails on its
    assertion and the log of remote calls is left as it was. *)
Theorem get_all_trades_rejects_other_pages (self : KucoinApi.t) (pair : string)
    (page_number : Z) (log : list Client.call) :
  page_number <> 1 ->
  KucoinApi.get_all_trades remote self pair page_number log = (Raise AssertionError, log).
Proof.
  intros Hpage.
  unfold KucoinApi.get_all_trades, mbind, io_bind, bind, lift.
  destruct (Z.eqb_spec page_number 1) as [Heq | _]; [contradiction | reflexivity].
Qed.

(** ** Active orders *)

(** C7: when the client answers with a sell-side list and a buy-side list
    of well-formed entries, [get_orders] returns the orders mapped from the
    sell list, marked as sells, followed by those mapped from the buy list,
    marked as buys, each side in the order of its source list; the length
    is the sum of the two lengths, so 2 sells and 3 buys give 5 orders. *)
Theorem get_orders_sells_then_buys (self : KucoinApi.t) (pair : string)
    (log : list Client.call) (orders : pyval) (sells buys : list pyval)
    (sell_orders buy_orders : list Order.t) :
  remote (KucoinApi.client self) log (Client.get_active_orders pair) = Ok orders ->
  getitem orders SIDE_SELL = Ok (PList sells) ->
  getitem orders SIDE_BUY = Ok (PList buys) ->
  Forall2 (fun item o => Order.from_list item pair true = Ok o) sells sell_orders ->
  Forall2 (fun item o => Order.from_list item pair false = Ok o) buys buy_orders ->
  let found := (sell_orders ++ buy_orders)%list in
  KucoinApi.get_orders remote self pair log
    = (Ok found, (log ++ [Client.get_active_orders pair])%list) /\
  length found = (length sells + length buys)%nat /\
  Forall (fun o => Order.is_sell o = true) sell_orders /\
  Forall (fun o => Order.is_sell o = false) buy_orders /\
  (forall i : nat, (i < length sells)%nat -> found !! i = sell_orders !! i) /\
  (forall j : nat, found !! (length sells + j)%nat = buy_orders !! j) /\
  (length sells = 2%nat -> length buys = 3%nat -> length found = 5%nat).
Proof.
  intros Hanswer Hsell Hbuy Hsells Hbuys found.
  pose proof (Forall2_length _ _ _ Hsells) as Ls.
  pose proof (Forall2_length _ _ _ Hbuys) as Lb.
  assert (Hlen : length found = (length sells + length buys)%nat).
  { unfold found. rewrite length_app. lia. }
  repeat split.
  - unfold KucoinApi.get_orders. run_io.
    rewrite Hanswer, Hsell. cbn.
    apply map_result_Ok in Hsells. rewrite Hsells.
    rewrite Hbuy. cbn.
    apply map_result_Ok in Hbuys. rewrite Hbuys.
    reflexivity.
  - exact Hlen.
  - clear - Hsells. induction Hsells as [| item o ? ? Ho _ IH]; constructor; [| exact IH].
    unfold Order.from_list in Ho.
    repeat match type of Ho with
           | context [mbind _ ?r] => destruct r; cbn in Ho; try discriminate
           end.
    injection Ho as <-. reflexivity.
  - clear - Hbuys. induction Hbuys as [| item o ? ? Ho _ IH]; constructor; [| exact IH].
    unfold Order.from_list in Ho.
    repeat match type of Ho with
           | context [mbind _ ?r] => destruct r; cbn in Ho; try discriminate
           end.
    injection Ho as <-. reflexivity.
  - intros i Hi. unfold found. apply lookup_app_l. lia.
  - intros j. unfold found. rewrite lookup_app_r by lia.
    f_equal. lia.
  - intros H2 H3. rewrite Hlen, H2, H3. reflexivity.
Qed.

(** C9, as the code has it: an empty [pair] passes the only check there is
    (that it is a string), so it is forwarded to the client in one
    active-orders call; a failure of that call is the failure of
    [get_orders]. *)
Theorem get_orders_forwards_empty_pair (self : KucoinApi.t) (log : list Client.call) :
  let request := Client.get_active_orders "" in
  snd (KucoinApi.get_orders remote self "" log) = (log ++ [request])%list /\
  match remote (KucoinApi.client self) log request with
  | Raise e => fst (KucoinApi.get_orders remote self "" log) = Raise e
  | Ok _ => True
  end.
Proof.
  cbn. unfold KucoinApi.get_orders. run_io.
  destruct (remote _ _ _) as [orders | e]; [| split; reflexivity].
  split; [| exact I].
  repeat match goal with
         | |- context [match ?r with Ok _ => _ | Raise _ => _ end] => destruct r; cbn
         end; reflexivity.
Qed.

(** ** Placing orders *)

(** C1: for a pair [base-quote] of two assets of the precision table, the
    one remote call of [place_order] is the order creation, with the price
    rendered to the decimal places of the quote asset and the amount to
    those of the base asset; the table of the code gives ETH 7, USDT 6,
    MKR 4, BTC 7 and DAI 4 places.  The identifier returned is the
    [orderOid] of the client's answer. *)
Theorem place_order_formats_to_precision (self : KucoinApi.t) (base quote : string)
    (is_sell : bool) (price amount : Wad) (log : list Client.call) (nb nq : nat) :
  decimal_places base = Some nb ->
  decimal_places quote = Some nq ->
  let pair := base ++ "-" ++ quote in
  let request :=
    Client.create_order pair (if is_sell then SIDE_SELL else SIDE_BUY)
      (format_percent (fixed_point_format nq) (Wad_float price))
      (format_percent (fixed_point_format nb) (Wad_float amount)) in
  KucoinApi.place_order remote self pair is_sell price amount log
    = (answer ← remote (KucoinApi.client self) log request; getitem answer "orderOid",
       (log ++ [request])%list) /\
  KucoinApi._get_precision "ETH" = Ok (fixed_point_format 7) /\
  KucoinApi._get_precision "USDT" = Ok (fixed_point_format 6) /\
  KucoinApi._get_precision "MKR" = Ok (fixed_point_format 4) /\
  KucoinApi._get_precision "BTC" = Ok (fixed_point_format 7) /\
  KucoinApi._get_precision "DAI" = Ok (fixed_point_format 4).
Proof.
  intros Hbase Hquote pair request.
  split; [| repeat split].
  unfold KucoinApi.place_order. run_io.
  assert (Hsplit : split "-" pair = [base; quote]).
  { unfold pair. change (base ++ "-" ++ quote) with (base ++ String "-" quote).
    rewrite split_first by (eapply decimal_places_free; eassumption).
    rewrite split_free by (eapply decimal_places_free; eassumption).
    reflexivity. }
  rewrite Hsplit. cbn [piece nth_error].
  rewrite !get_precision_decimal_places, Hbase, Hquote.
  fold request.
  destruct (remote (KucoinApi.client self) log request) as [answer | e]; cbn;
    [| reflexivity].
  destruct (getitem answer "orderOid"); reflexivity.
Qed.

(** C6: when the base or the quote asset of the pair is absent from the
    precision table, [place_order] fails with the key error of an absent
    asset and the log of remote calls is left as it was. *)
Theorem place_order_rejects_unknown_asset (self : KucoinApi.t) (pair : string)
    (is_sell : bool) (price amount : Wad) (log : list Client.call)
    (base quote : string) (rest : list string) :
  split "-" pair = base :: quote :: rest ->
  decimal_places base = None \/ decimal_places quote = None ->
  exists coin : string,
    (coin = base \/ coin = quote) /\
    decimal_places coin = None /\
    KucoinApi.place_order remote self pair is_sell price amount log
      = (Raise (KeyError coin), log).
Proof.
  intros Hsplit Habsent.
  unfold KucoinApi.place_order. run_io.
  rewrite Hsplit. cbn [piece nth_error].
  rewrite !get_precision_decimal_places.
  destruct (decimal_places quote) as [nq |] eqn:Hquote.
  - destruct Habsent as [Hbase | ?]; [| discriminate].
    exists base. rewrite Hbase. auto.
  - exists quote. auto.
Qed.

(** ** Trades *)

(** C4: a keyed record and a positional record that carry the same order
    identifier, millisecond timestamp, side, price and amount are mapped to
    trades that agree on order identifier, timestamp, pair, side, price and
    amount, the positional one having no trade identifier.  Whenever the
    keyed mapping yields a trade so does the positional one, and the
    converse holds when the keyed record's [id] is an integer or [None]. *)
Theorem trade_mappings_agree (pair : string) (keyed positional : pyval)
    (tid oid created dir deal amt : pyval) :
  getitem keyed "id" = Ok tid ->
  getitem keyed "orderOid" = Ok oid -> getindex positional 5 = Ok oid ->
  getitem keyed "createdAt" = Ok created -> getindex positional 0 = Ok created ->
  getitem keyed "direction" = Ok dir -> getindex positional 1 = Ok dir ->
  getitem keyed "dealPrice" = Ok deal -> getindex positional 2 = Ok deal ->
  getitem keyed "amount" = Ok amt -> getindex positional 3 = Ok amt ->
  (forall t1 : Trade.t,
     Trade.from_dict pair keyed = Ok t1 ->
     exists t2 : Trade.t,
       Trade.from_list pair positional = Ok t2 /\
       Trade.trade_id t2 = PNone /\
       Trade.order_id t2 = Trade.order_id t1 /\
       Trade.timestamp t2 = Trade.timestamp t1 /\
       Trade.pair t2 = Trade.pair t1 /\
       Trade.is_sell t2 = Trade.is_sell t1 /\
       Trade.price t2 = Trade.price t1 /\
       Trade.amount t2 = Trade.amount t1) /\
  (isinstance_int tid || is_None tid = true ->
   forall t2 : Trade.t,
     Trade.from_list pair positional = Ok t2 ->
     exists t1 : Trade.t,
       Trade.from_dict pair keyed = Ok t1 /\
       Trade.trade_id t1 = tid /\
       Trade.trade_id t2 = PNone /\
       Trade.order_id t2 = Trade.order_id t1 /\
       Trade.timestamp t2 = Trade.timestamp t1 /\
       Trade.pair t2 = Trade.pair t1 /\
       Trade.is_sell t2 = Trade.is_sell t1 /\
       Trade.price t2 = Trade.price t1 /\
       Trade.amount t2 = Trade.amount t1).
Proof.
  intros Hid Ko Po Kc Pc Kd Pd Kp Pp Ka Pa.
  unfold Trade.from_dict, Trade.from_list, Trade.__init__.
  rewrite Hid, Ko, Po, Kc, Pc, Kd, Pd, Kp, Pp, Ka, Pa. cbn.
  destruct (Trade.seconds_of_millis created) as [ts | e]; cbn;
    [| split; [| intros _]; intros ? [=]].
  destruct (Wad_from_number deal) as [p | e]; cbn;
    [| split; [| intros _]; intros ? [=]].
  destruct (Wad_from_number amt) as [a | e]; cbn;
    [| split; [| intros _]; intros ? [=]].
  split.
  - intros t1.
    destruct (isinstance_int tid || is_None tid); cbn; [| intros [=]].
    destruct (isinstance_str oid || is_None oid); cbn; [| intros [=]].
    intros [= <-]. eexists. split; [reflexivity |]. cbn. repeat split.
  - intros -> t2. cbn.
    destruct (isinstance_str oid || is_None oid); cbn; [| intros [=]].
    intros [= <-]. eexists. split; [reflexivity |]. cbn. repeat split.
Qed.

End Properties.

(** The second page is refused by the stub-backed adapter without a call. *)
Lemma get_all_trades_rejects_other_pages_at_2 :
  2 <> 1 /\
  KucoinApi.get_all_trades (RT := Stub.runtime) Stub.idle Stub.kucoin "ETH-DAI" 2 []
    = (Raise AssertionError, []).
Proof.
  split; [lia | apply get_all_trades_rejects_other_pages; lia].
Defined.

(** C8, as claimed, fails: two adapters that differ in base URL and in
    timeout hand the very same arguments to the client. *)
Lemma init_drops_server_and_timeout :
  KucoinApi.client (KucoinApi.__init__ "https://api.kucoin.com" "key" "secret" 9.5%float PNone)
    = Client.new "key" "secret" /\
  KucoinApi.client (KucoinApi.__init__ "https://example.org" "key" "secret" 1.5%float PNone)
    = Client.new "key" "secret" /\
  "https://api.kucoin.com" <> "https://example.org" /\
  PrimFloat.eqb 9.5 1.5 = false.
Proof.
  repeat split; [discriminate].
Qed.

(** C9, as claimed, fails: with the empty pair the stub-backed adapter
    calls the client and returns its (empty) list of orders. *)
Lemma get_orders_accepts_empty_pair :
  KucoinApi.get_orders (RT := Stub.runtime) Stub.idle Stub.kucoin "" []
    = (Ok [], [Client.get_active_orders ""]).
Proof. reflexivity. Qed.

(** Two asks and three bids come back as five orders, asks first. *)
Lemma get_orders_two_asks_three_bids :
  exists found : list Order.t,
    KucoinApi.get_orders (RT := Stub.runtime) Stub.busy Stub.kucoin "ETH-DAI" []
      = (Ok found, [Client.get_active_orders "ETH-DAI"]) /\
    length found = 5%nat /\
    List.map Order.order_id found
      = [PStr "a1"; PStr "a2"; PStr "b1"; PStr "b2"; PStr "b3"] /\
    List.map Order.is_sell found = [true; true; false; false; false].
Proof.
  edestruct
    (get_orders_sells_then_buys (RT := Stub.runtime) Stub.busy Stub.kucoin "ETH-DAI" [])
    as (Hrun & _).
  - reflexivity.
  - reflexivity.
  - reflexivity.
  - apply map_result_Ok. reflexivity.
  - apply map_result_Ok. reflexivity.
  - eexists. split; [exact Hrun |].
    split; [reflexivity |]. split; reflexivity.
Defined.

(** An order on ETH-DAI reaches the client with the price in the format of
    DAI and the amount in the format of ETH. *)
Lemma place_order_formats_eth_dai :
  KucoinApi.place_order (RT := Stub.runtime) Stub.idle Stub.kucoin "ETH-DAI" false
      (20 * 10 ^ 18) (3 * 10 ^ 18) []
    = (Ok (PStr "5c1366ab335e7e74f25baf5d"),
       [Client.create_order "ETH-DAI" "BUY" "%.4f" "%.7f"]).
Proof.
  exact (proj1 (place_order_formats_to_precision (RT := Stub.runtime) Stub.idle
                  Stub.kucoin "ETH" "DAI" false (20 * 10 ^ 18) (3 * 10 ^ 18) []
                  7 4 eq_refl eq_refl)).
Defined.

(** An order on an asset without precision never reaches the client. *)
Lemma place_order_rejects_xyz :
  exists coin : string,
    KucoinApi.place_order (RT := Stub.runtime) Stub.idle Stub.kucoin "XYZ-DAI" true
        (20 * 10 ^ 18) (3 * 10 ^ 18) []
      = (Raise (KeyError coin), []).
Proof.
  destruct (place_order_rejects_unknown_asset (RT := Stub.runtime) Stub.idle
              Stub.kucoin "XYZ-DAI" true (20 * 10 ^ 18) (3 * 10 ^ 18) []
              "XYZ" "DAI" [] eq_refl (or_introl eq_refl))
    as (coin & _ & _ & Hrun).
  exists coin. exact Hrun.
Defined.

(** The trade of the source's comment, keyed and positional. *)
Lemma trade_mappings_agree_on_sample :
  exists t1 t2 : Trade.t,
    Trade.from_dict (RT := Stub.runtime) "ETH-DAI" Stub.keyed_trade = Ok t1 /\
    Trade.from_list (RT := Stub.runtime) "ETH-DAI" Stub.positional_trade = Ok t2 /\
    Trade.trade_id t1 = PInt 77 /\
    Trade.trade_id t2 = PNone /\
    Trade.order_id t2 = Trade.order_id t1 /\
    Trade.timestamp t2 = 1544564526 /\
    Trade.timestamp t1 = 1544564526 /\
    Trade.is_sell t2 = Trade.is_sell t1 /\
    Trade.price t2 = Trade.price t1 /\
    Trade.amount t2 = Trade.amount t1.
Proof.
  destruct (trade_mappings_agree (RT := Stub.runtime) "ETH-DAI"
              Stub.keyed_trade Stub.positional_trade
              (PInt 77) (PStr "5c102f2d335e7e08134edd77") (PInt 1544564526000)
              (PStr "SELL") (PInt 25) (PInt 3)
              eq_refl eq_refl eq_refl eq_refl eq_refl eq_refl eq_refl eq_refl
              eq_refl eq_refl eq_refl) as [Hforth _].
  destruct (Hforth _ eq_refl) as (t2 & H2 & Hnone & Ho & Hts & _ & Hs & Hp & Ha).
  eexists. exists t2.
  split; [reflexivity |]. split; [exact H2 |].
  split; [reflexivity |]. split; [exact Hnone |]. split; [exact Ho |].
  split; [rewrite Hts; reflexivity |]. split; [reflexivity |].
  split; [exact Hs |]. split; [exact Hp | exact Ha].
Defined.

(** * Further properties of the mapping layer *)

(** ** Mapping over the items of an answer *)

Lemma map_result_length {A B} (f : A -> result B) (xs : list A) (ys : list B) :
  map_result f xs = Ok ys -> length ys = length xs.
Proof.
  intros H. apply map_result_Ok in H. symmetry. exact (Forall2_length _ _ _ H).
Qed.

Lemma map_result_Forall {A B} (f : A -> result B) (P : B -> Prop)
    (xs : list A) (ys : list B) :
  (forall x y, f x = Ok y -> P y) ->
  map_result f xs = Ok ys -> Forall P ys.
Proof.
  intros HP H. apply map_result_Ok in H.
  induction H as [| x y xs ys Hxy _ IH]; constructor; eauto.
Qed.

(** The first item that fails decides the outcome. *)
Lemma map_result_first_failure {A B} (f : A -> result B) (before after : list A)
    (x : A) (e : exn) :
  Forall (fun a => exists b, f a = Ok b) before ->
  f x = Raise e ->
  map_result f (before ++ x :: after) = Raise e.
Proof.
  intros Hbefore Hx.
  induction Hbefore as [| a before [b Hb] _ IH]; cbn.
  - rewrite Hx. reflexivity.
  - rewrite Hb. cbn. rewrite IH. reflexivity.
Qed.

Ltac invert_binds H :=
  repeat match type of H with
         | context [mbind _ ?r] =>
             let E := fresh "E" in
             destruct r eqn:E; cbn in H; try discriminate
         end.

Section Mapping.
Context `{RT : Runtime}.

(** What a successful mapping has read. *)
Lemma order_from_list_inv (item : pyval) (pair : string) (sell : bool) (o : Order.t) :
  Order.from_list item pair sell = Ok o ->
  exists oid p q price amount,
    getindex item 5 = Ok oid /\
    getindex item 2 = Ok p /\ Wad_from_number p = Ok price /\
    getindex item 3 = Ok q /\ Wad_from_number q = Ok amount /\
    o = Order.mk oid pair sell price amount.
Proof.
  unfold Order.from_list. intros H. invert_binds H.
  injection H as <-. eauto 12.
Qed.

Lemma trade_init_inv (tid oid : pyval) (ts : Z) (pair : string) (sell : bool)
    (price amount : Wad) (t : Trade.t) :
  Trade.__init__ tid oid ts pair sell price amount = Ok t ->
  isinstance_int tid || is_None tid = true /\
  isinstance_str oid || is_None oid = true /\
  t = Trade.mk tid oid ts pair sell price amount.
Proof.
  unfold Trade.__init__.
  destruct (isinstance_int tid || is_None tid); cbn; [| discriminate].
  destruct (isinstance_str oid || is_None oid); cbn; [| discriminate].
  intros [= <-]. auto.
Qed.

Lemma seconds_of_millis_inv (v : pyval) (ts : Z) :
  Trade.seconds_of_millis v = Ok ts ->
  exists f ms, py_float v = Ok f /\ py_int f = Ok ms /\ ts = ms / 1000.
Proof.
  unfold Trade.seconds_of_millis. intros H. invert_binds H.
  injection H as <-. eauto.
Qed.

Lemma trade_from_list_inv (pair : string) (row : pyval) (t : Trade.t) :
  Trade.from_list pair row = Ok t ->
  exists oid created ts dir p price q amount,
    getindex row 5 = Ok oid /\
    getindex row 0 = Ok created /\ Trade.seconds_of_millis created = Ok ts /\
    getindex row 1 = Ok dir /\
    getindex row 2 = Ok p /\ Wad_from_number p = Ok price /\
    getindex row 3 = Ok q /\ Wad_from_number q = Ok amount /\
    isinstance_str oid || is_None oid = true /\
    t = Trade.mk PNone oid ts pair (eq_str dir "SELL") price amount.
Proof.
  unfold Trade.from_list. remember (@Trade.__init__ RT) as init eqn:Hinit.
  intros H. invert_binds H. subst init.
  apply trade_init_inv in H as (_ & Hoid & ->). eauto 20.
Qed.

Lemma trade_from_dict_inv (pair : string) (record : pyval) (t : Trade.t) :
  Trade.from_dict pair record = Ok t ->
  exists tid oid created ts dir p price q amount,
    getitem record "id" = Ok tid /\
    getitem record "orderOid" = Ok oid /\
    getitem record "createdAt" = Ok created /\ Trade.seconds_of_millis created = Ok ts /\
    getitem record "direction" = Ok dir /\
    getitem record "dealPrice" = Ok p /\ Wad_from_number p = Ok price /\
    getitem record "amount" = Ok q /\ Wad_from_number q = Ok amount /\
    isinstance_int tid || is_None tid = true /\
    isinstance_str oid || is_None oid = true /\
    t = Trade.mk tid oid ts pair (eq_str dir "SELL") price amount.
Proof.
  unfold Trade.from_dict. remember (@Trade.__init__ RT) as init eqn:Hinit.
  intros H. invert_binds H. subst init.
  apply trade_init_inv in H as (Htid & Hoid & ->). eauto 25.
Qed.

End Mapping.

Lemma assert_true (b : bool) : b = true -> assert b = Ok tt.
Proof. intros ->. reflexivity. Qed.

Lemma eq_str_true (v : pyval) (lit : string) :
  eq_str v lit = true <-> v = PStr lit.
Proof.
  destruct v; cbn; try (split; discriminate).
  rewrite String.eqb_eq. split; [intros -> | intros [= ->]]; reflexivity.
Qed.

(** A value with an entry at index 5 has one at index 1. *)
Lemma getindex_5_1 (v x : pyval) :
  getindex v 5 = Ok x -> exists y, getindex v 1 = Ok y.
Proof.
  destruct v as [| | | | s | items |]; cbn; try discriminate.
  - do 2 (destruct s as [| ? s]; cbn; try discriminate). eauto.
  - do 2 (destruct items as [| ? items]; cbn; try discriminate). eauto.
Qed.

Section RecordMapping.
Context `{RT : Runtime}.

(** ** Positional and keyed records *)

(** X1: a positional record with fewer than six entries is refused with an
    index error by both mappings, before any number is converted. *)
Theorem short_row_is_index_error (items : list pyval) (pair : string) (sell : bool) :
  (length items <= 5)%nat ->
  Order.from_list (PList items) pair sell = Raise IndexError /\
  Trade.from_list pair (PList items) = Raise IndexError.
Proof.
  intros Hshort.
  assert (Hnone : nth_error items 5 = None) by (apply nth_error_None; lia).
  unfold Order.from_list, Trade.from_list, getindex. rewrite Hnone. split; reflexivity.
Qed.

(** X2: the timestamp of a trade is the floor of its millisecond value
    divided by 1000, on the positional and on the keyed path. *)
Theorem trade_timestamp_is_floor_of_millis (pair : string) (source created : pyval)
    (t : Trade.t) (f : float) (ms : Z) :
  (Trade.from_list pair source = Ok t /\ getindex source 0 = Ok created) \/
  (Trade.from_dict pair source = Ok t /\ getitem source "createdAt" = Ok created) ->
  py_float created = Ok f ->
  py_int f = Ok ms ->
  1000 * Trade.timestamp t <= ms < 1000 * Trade.timestamp t + 1000.
Proof.
  intros Hsource Hf Hms.
  assert (Hts : Trade.seconds_of_millis created = Ok (Trade.timestamp t)).
  { destruct Hsource as [[Ht Hc] | [Ht Hc]].
    - apply trade_from_list_inv in Ht
        as (? & c & ts & ? & ? & ? & ? & ? & _ & Hc' & Hts & _ & _ & _ & _ & _ & _ & ->).
      rewrite Hc in Hc'. injection Hc' as <-. exact Hts.
    - apply trade_from_dict_inv in Ht
        as (? & ? & c & ts & ? & ? & ? & ? & ? & _ & _ & Hc' & Hts & _ & _ & _ & _ & _ & _ & _ & ->).
      rewrite Hc in Hc'. injection Hc' as <-. exact Hts. }
  apply seconds_of_millis_inv in Hts as (f' & ms' & Hf' & Hms' & ->).
  rewrite Hf in Hf'. injection Hf' as <-.
  rewrite Hms in Hms'. injection Hms' as <-.
  pose proof (Z.div_mod ms 1000 ltac:(lia)).
  pose proof (Z.mod_pos_bound ms 1000 ltac:(lia)).
  lia.
Qed.

(** X3: a trade is a sell exactly when the side of its record is the
    string [SELL]; any other value, [sell] included, makes it a buy. *)
Theorem trade_is_sell_iff_SELL (pair : string) (source dir : pyval) (t : Trade.t) :
  (Trade.from_list pair source = Ok t /\ getindex source 1 = Ok dir) \/
  (Trade.from_dict pair source = Ok t /\ getitem source "direction" = Ok dir) ->
  Trade.is_sell t = true <-> dir = PStr "SELL".
Proof.
  intros Hsource.
  assert (Hside : Trade.is_sell t = eq_str dir "SELL").
  { destruct Hsource as [[Ht Hd] | [Ht Hd]].
    - apply trade_from_list_inv in Ht
        as (? & ? & ? & d & ? & ? & ? & ? & _ & _ & _ & Hd' & _ & _ & _ & _ & _ & ->).
      rewrite Hd in Hd'. injection Hd' as <-. reflexivity.
    - apply trade_from_dict_inv in Ht
        as (? & ? & ? & ? & d & ? & ? & ? & ? & _ & _ & _ & _ & Hd' & _ & _ & _ & _ & _ & _ & ->).
      rewrite Hd in Hd'. injection Hd' as <-. reflexivity. }
  rewrite Hside. apply eq_str_true.
Qed.

(** X4: an order and a trade mapped from the same positional record carry
    the same order identifier, price and amount. *)
Theorem order_and_trade_of_a_row_agree (row : pyval) (pair : string) (sell : bool)
    (o : Order.t) (t : Trade.t) :
  Order.from_list row pair sell = Ok o ->
  Trade.from_list pair row = Ok t ->
  Order.order_id o = Trade.order_id t /\
  Order.price o = Trade.price t /\
  Order.amount o = Trade.amount t /\
  Order.pair o = Trade.pair t.
Proof.
  intros Ho Ht.
  apply order_from_list_inv in Ho
    as (oid & p & q & price & amount & H5 & H2 & Hp & H3 & Hq & ->).
  apply trade_from_list_inv in Ht
    as (oid' & ? & ? & ? & p' & price' & q' & amount'
        & H5' & _ & _ & _ & H2' & Hp' & H3' & Hq' & _ & ->).
  rewrite H5 in H5'. injection H5' as <-.
  rewrite H2 in H2'. injection H2' as <-.
  rewrite H3 in H3'. injection H3' as <-.
  rewrite Hp in Hp'. injection Hp' as <-.
  rewrite Hq in Hq'. injection Hq' as <-.
  cbn. auto.
Qed.

(** X5: [Order] takes any order identifier, [Trade] asserts a string or
    [None]: a record that maps to an order whose identifier is neither is
    refused as a trade with an assertion error, once its timestamp
    converts. *)
Theorem trade_refuses_identifier_order_accepts (row created : pyval) (pair : string)
    (sell : bool) (o : Order.t) (f : float) (ms : Z) :
  Order.from_list row pair sell = Ok o ->
  isinstance_str (Order.order_id o) || is_None (Order.order_id o) = false ->
  getindex row 0 = Ok created ->
  py_float created = Ok f ->
  py_int f = Ok ms ->
  Trade.from_list pair row = Raise AssertionError.
Proof.
  intros Ho Hoid H0 Hf Hms.
  apply order_from_list_inv in Ho
    as (oid & p & q & price & amount & H5 & H2 & Hp & H3 & Hq & ->).
  cbn in Hoid.
  destruct (getindex_5_1 _ _ H5) as [dir H1].
  unfold Trade.from_list, Trade.seconds_of_millis, Trade.__init__.
  rewrite H5. cbn. rewrite H0. cbn. rewrite Hf. cbn. rewrite Hms. cbn.
  rewrite H1. cbn. rewrite H2. cbn. rewrite Hp. cbn. rewrite H3. cbn.
  rewrite Hq. cbn. rewrite Hoid. reflexivity.
Qed.

End RecordMapping.

Section Facade.
Context `{RT : Runtime}.
Variable remote : Client.behaviour.

(** ** Active orders *)

(** X6: whatever the client answers, [get_orders] makes exactly one remote
    call, and a failure of that call is the failure of [get_orders]. *)
Theorem get_orders_makes_one_call (self : KucoinApi.t) (pair : string)
    (log : list Client.call) :
  let request := Client.get_active_orders pair in
  snd (KucoinApi.get_orders remote self pair log) = (log ++ [request])%list /\
  match remote (KucoinApi.client self) log request with
  | Raise e => fst (KucoinApi.get_orders remote self pair log) = Raise e
  | Ok _ => True
  end.
Proof.
  cbn. unfold KucoinApi.get_orders. run_io.
  destruct (remote _ _ _) as [orders | e]; [| split; reflexivity].
  split; [| exact I].
  repeat match goal with
         | |- context [match ?r with Ok _ => _ | Raise _ => _ end] => destruct r; cbn
         end; reflexivity.
Qed.

(** X7: every order [get_orders] returns carries the pair that was asked
    for. *)
Theorem get_orders_keeps_pair (self : KucoinApi.t) (pair : string)
    (log log' : list Client.call) (found : list Order.t) :
  KucoinApi.get_orders remote self pair log = (Ok found, log') ->
  Forall (fun o => Order.pair o = pair) found.
Proof.
  unfold KucoinApi.get_orders. run_io.
  destruct (remote _ _ _) as [orders | e]; [| discriminate].
  destruct (getitem orders SIDE_SELL) as [sells | e]; [| discriminate].
  destruct (iterate sells) as [sell_items | e]; [| discriminate].
  destruct (map_result _ sell_items) as [sell_orders | e] eqn:Hsells; [| discriminate].
  destruct (getitem orders SIDE_BUY) as [buys | e]; [| discriminate].
  destruct (iterate buys) as [buy_items | e]; [| discriminate].
  destruct (map_result _ buy_items) as [buy_orders | e] eqn:Hbuys; [| discriminate].
  intros [= <- _].
  apply Forall_app. split.
  - eapply map_result_Forall; [| exact Hsells].
    intros item o Ho. cbn in Ho.
    apply order_from_list_inv in Ho as (? & ? & ? & ? & ? & _ & _ & _ & _ & _ & ->).
    reflexivity.
  - eapply map_result_Forall; [| exact Hbuys].
    intros item o Ho. cbn in Ho.
    apply order_from_list_inv in Ho as (? & ? & ? & ? & ? & _ & _ & _ & _ & _ & ->).
    reflexivity.
Qed.

(** X8: one sell entry that cannot be mapped makes [get_orders] fail as a
    whole, with the error of the first such entry, whatever the buy side
    holds. *)
Theorem get_orders_fails_on_first_bad_sell (self : KucoinApi.t) (pair : string)
    (log : list Client.call) (orders : pyval) (before after : list pyval)
    (bad : pyval) (e : exn) :
  remote (KucoinApi.client self) log (Client.get_active_orders pair) = Ok orders ->
  getitem orders SIDE_SELL = Ok (PList (before ++ bad :: after)) ->
  Forall (fun item => exists o, Order.from_list item pair true = Ok o) before ->
  Order.from_list bad pair true = Raise e ->
  KucoinApi.get_orders remote self pair log
    = (Raise e, (log ++ [Client.get_active_orders pair])%list).
Proof.
  intros Hanswer Hsell Hbefore Hbad.
  unfold KucoinApi.get_orders. run_io.
  rewrite Hanswer, Hsell. cbn [iterate].
  rewrite (map_result_first_failure _ before after bad e Hbefore Hbad).
  reflexivity.
Qed.

(** X9: when all sell entries map, one buy entry that cannot be mapped
    makes [get_orders] fail with the error of the first such entry: the
    mapped sells are not returned. *)
Theorem get_orders_fails_on_first_bad_buy (self : KucoinApi.t) (pair : string)
    (log : list Client.call) (orders : pyval) (sells before after : list pyval)
    (sell_orders : list Order.t) (bad : pyval) (e : exn) :
  remote (KucoinApi.client self) log (Client.get_active_orders pair) = Ok orders ->
  getitem orders SIDE_SELL = Ok (PList sells) ->
  Forall2 (fun item o => Order.from_list item pair true = Ok o) sells sell_orders ->
  getitem orders SIDE_BUY = Ok (PList (before ++ bad :: after)) ->
  Forall (fun item => exists o, Order.from_list item pair false = Ok o) before ->
  Order.from_list bad pair false = Raise e ->
  KucoinApi.get_orders remote self pair log
    = (Raise e, (log ++ [Client.get_active_orders pair])%list).
Proof.
  intros Hanswer Hsell Hsells Hbuy Hbefore Hbad.
  unfold KucoinApi.get_orders. run_io.
  rewrite Hanswer, Hsell. cbn [iterate].
  apply map_result_Ok in Hsells. rewrite Hsells.
  rewrite Hbuy. cbn [iterate].
  rewrite (map_result_first_failure _ before after bad e Hbefore Hbad).
  reflexivity.
Qed.

(** X10: an answer that is a dict without the sell-side key makes
    [get_orders] fail with the key error of that key. *)
Theorem get_orders_missing_sell_side (self : KucoinApi.t) (pair : string)
    (log : list Client.call) (items : list (string * pyval)) :
  remote (KucoinApi.client self) log (Client.get_active_orders pair) = Ok (PDict items) ->
  assoc SIDE_SELL items = None ->
  KucoinApi.get_orders remote self pair log
    = (Raise (KeyError SIDE_SELL), (log ++ [Client.get_active_orders pair])%list).
Proof.
  intros Hanswer Hmissing.
  unfold KucoinApi.get_orders. run_io.
  rewrite Hanswer. unfold getitem. rewrite Hmissing. reflexivity.
Qed.

End Facade.

Section TradeHistory.
Context `{RT : Runtime}.
Variable remote : Client.behaviour.

(** ** Trades of the account and public trades *)

(** X11: for any page number, zero or negative included, [get_trades]
    makes exactly one remote call, for the page before it and 100 entries,
    and a failure of that call is the failure of [get_trades]. *)
Theorem get_trades_asks_previous_page (self : KucoinApi.t) (pair : string)
    (page_number : Z) (log : list Client.call) :
  let request := Client.get_symbol_dealt_orders pair (page_number - 1) 100 in
  snd (KucoinApi.get_trades remote self pair page_number log) = (log ++ [request])%list /\
  match remote (KucoinApi.client self) log request with
  | Raise e => fst (KucoinApi.get_trades remote self pair page_number log) = Raise e
  | Ok _ => True
  end.
Proof.
  cbn. unfold KucoinApi.get_trades. run_io.
  destruct (remote _ _ _) as [answer | e]; [| split; reflexivity].
  split; [| exact I].
  repeat match goal with
         | |- context [match ?r with Ok _ => _ | Raise _ => _ end] => destruct r; cbn
         end; reflexivity.
Qed.

(** X12: every trade [get_trades] returns carries the pair asked for, a
    trade identifier that is an integer or [None] and an order identifier
    that is a string or [None]. *)
Theorem get_trades_result_invariant (self : KucoinApi.t) (pair : string)
    (page_number : Z) (log log' : list Client.call) (trades : list Trade.t) :
  KucoinApi.get_trades remote self pair page_number log = (Ok trades, log') ->
  Forall (fun t =>
            Trade.pair t = pair /\
            isinstance_int (Trade.trade_id t) || is_None (Trade.trade_id t) = true /\
            isinstance_str (Trade.order_id t) || is_None (Trade.order_id t) = true)
         trades.
Proof.
  unfold KucoinApi.get_trades. run_io.
  destruct (remote _ _ _) as [answer | e]; [| discriminate].
  destruct (getitem answer "datas") as [datas | e]; [| discriminate].
  destruct (iterate datas) as [items | e]; [| discriminate].
  unfold lift.
  destruct (map_result _ items) as [ts | e] eqn:Hmap; [| discriminate].
  intros [= <- _].
  eapply map_result_Forall; [| exact Hmap].
  intros item t Ht. cbn in Ht.
  apply trade_from_dict_inv in Ht
    as (? & ? & ? & ? & ? & ? & ? & ? & ?
        & _ & _ & _ & _ & _ & _ & _ & _ & _ & Htid & Hoid & ->).
  cbn. auto.
Qed.

(** X13: when the answer holds a list of keyed records under [datas] and
    each maps to a trade, [get_trades] returns these trades in the order of
    the records, as many as there are records. *)
Theorem get_trades_maps_every_record (self : KucoinApi.t) (pair : string)
    (page_number : Z) (log : list Client.call) (answer : pyval)
    (records : list pyval) (trades : list Trade.t) :
  let request := Client.get_symbol_dealt_orders pair (page_number - 1) 100 in
  remote (KucoinApi.client self) log request = Ok answer ->
  getitem answer "datas" = Ok (PList records) ->
  Forall2 (fun record t => Trade.from_dict pair record = Ok t) records trades ->
  KucoinApi.get_trades remote self pair page_number log
    = (Ok trades, (log ++ [request])%list) /\
  length trades = length records.
Proof.
  intros request Hanswer Hdatas Hmap.
  split; [| symmetry; exact (Forall2_length _ _ _ Hmap)].
  unfold KucoinApi.get_trades. run_io.
  fold request. rewrite Hanswer, Hdatas. cbn [iterate].
  apply (map_result_Ok (fun item => Trade.from_dict pair item)) in Hmap.
  rewrite Hmap. reflexivity.
Qed.

(** X14: whenever [get_all_trades] returns, the page number was 1, one
    remote call was made, for the 50 most recent trades, and every trade
    returned has no trade identifier, carries the pair asked for and has an
    order identifier that is a string or [None]. *)
Theorem get_all_trades_result_invariant (self : KucoinApi.t) (pair : string)
    (page_number : Z) (log log' : list Client.call) (trades : list Trade.t) :
  KucoinApi.get_all_trades remote self pair page_number log = (Ok trades, log') ->
  page_number = 1 /\
  log' = (log ++ [Client.get_recent_orders pair 50])%list /\
  Forall (fun t =>
            Trade.trade_id t = PNone /\
            Trade.pair t = pair /\
            isinstance_str (Trade.order_id t) || is_None (Trade.order_id t) = true)
         trades.
Proof.
  unfold KucoinApi.get_all_trades. run_io.
  destruct (Z.eqb_spec page_number 1) as [-> | _]; cbn; [| discriminate].
  destruct (remote _ _ _) as [answer | e]; [| discriminate].
  destruct (iterate answer) as [items | e]; [| discriminate].
  unfold lift.
  destruct (map_result _ items) as [ts | e] eqn:Hmap; [| discriminate].
  intros [= <- <-].
  repeat split.
  eapply map_result_Forall; [| exact Hmap].
  intros item t Ht. cbn in Ht.
  apply trade_from_list_inv in Ht
    as (? & ? & ? & ? & ? & ? & ? & ?
        & _ & _ & _ & _ & _ & _ & _ & _ & Hoid & ->).
  cbn. auto.
Qed.

(** X15: when the records of the account's trades and the rows of the
    public trades carry, one by one, the same order identifier, timestamp,
    side, price and amount, then whenever [get_trades] returns,
    [get_all_trades] returns as many trades, which agree with them one by
    one in every field but the trade identifier, which they lack. *)
Theorem public_trades_agree_with_account_trades (self : KucoinApi.t) (pair : string)
    (page_number : Z) (log1 log2 log1' : list Client.call) (answer : pyval)
    (records rows : list pyval) (trades : list Trade.t) :
  remote (KucoinApi.client self) log1
    (Client.get_symbol_dealt_orders pair (page_number - 1) 100) = Ok answer ->
  getitem answer "datas" = Ok (PList records) ->
  remote (KucoinApi.client self) log2 (Client.get_recent_orders pair 50) = Ok (PList rows) ->
  Forall2 (fun record row =>
             getindex row 5 = getitem record "orderOid" /\
             getindex row 0 = getitem record "createdAt" /\
             getindex row 1 = getitem record "direction" /\
             getindex row 2 = getitem record "dealPrice" /\
             getindex row 3 = getitem record "amount")
          records rows ->
  KucoinApi.get_trades remote self pair page_number log1 = (Ok trades, log1') ->
  exists public : list Trade.t,
    KucoinApi.get_all_trades remote self pair 1 log2
      = (Ok public, (log2 ++ [Client.get_recent_orders pair 50])%list) /\
    Forall2 (fun t u =>
               Trade.trade_id u = PNone /\
               Trade.order_id u = Trade.order_id t /\
               Trade.timestamp u = Trade.timestamp t /\
               Trade.pair u = Trade.pair t /\
               Trade.is_sell u = Trade.is_sell t /\
               Trade.price u = Trade.price t /\
               Trade.amount u = Trade.amount t)
            trades public.
Proof.
  intros Hanswer Hdatas Hrows Hsame.
  unfold KucoinApi.get_trades, KucoinApi.get_all_trades. run_io.
  rewrite Hanswer, Hdatas, Hrows. cbn [iterate Z.eqb Pos.eqb assert].
  destruct (map_result _ records) as [ts | e] eqn:Hmap; [| discriminate].
  intros [= <- _].
  apply map_result_Ok in Hmap.
  assert (Hpublic : exists public,
             Forall2 (fun row u => Trade.from_list pair row = Ok u) rows public /\
             Forall2 (fun t u =>
               Trade.trade_id u = PNone /\
               Trade.order_id u = Trade.order_id t /\
               Trade.timestamp u = Trade.timestamp t /\
               Trade.pair u = Trade.pair t /\
               Trade.is_sell u = Trade.is_sell t /\
               Trade.price u = Trade.price t /\
               Trade.amount u = Trade.amount t) ts public).
  { clear - Hsame Hmap. revert ts Hmap.
    induction Hsame as [| record row records rows (H5 & H0 & H1 & H2 & H3) _ IH];
      intros ts Hmap; inversion Hmap as [| ? t ? ts' Ht Hts]; subst.
    - exists []. split; constructor.
    - destruct (IH _ Hts) as (public & Hrows & Hagree).
      apply trade_from_dict_inv in Ht
        as (tid & oid & created & tstamp & dir & p & price & q & amount
            & _ & Ko & Kc & Hts' & Kd & Kp & Hp & Kq & Hq & _ & Hoid & ->).
      exists (Trade.mk PNone oid tstamp pair (eq_str dir "SELL") price amount :: public).
      split; constructor; try assumption.
      + unfold Trade.from_list, Trade.__init__.
        rewrite H5, Ko. cbn. rewrite H0, Kc. cbn. rewrite Hts'. cbn.
        rewrite H1, Kd. cbn. rewrite H2, Kp. cbn. rewrite Hp. cbn.
        rewrite H3, Kq. cbn. rewrite Hq. cbn. rewrite Hoid. reflexivity.
      + cbn. repeat split. }
  destruct Hpublic as (public & Hrowmap & Hagree).
  exists public. split; [| exact Hagree].
  apply (map_result_Ok (fun item => Trade.from_list pair item)) in Hrowmap.
  rewrite Hrowmap. reflexivity.
Qed.

End TradeHistory.

(** ** Splitting a pair *)

Lemma split_nonempty (sep : ascii) (s : string) : split sep s <> [].
Proof.
  destruct s as [| c s]; cbn; [discriminate |].
  destruct (Ascii.eqb c sep); [discriminate |].
  destruct (split sep s); discriminate.
Qed.

(** X16: the pieces of a split are never none, hold no separator, and
    joined by the separator give the string back. *)
Theorem split_join (sep : ascii) (s : string) :
  join sep (split sep s) = s /\
  (1 <= length (split sep s))%nat /\
  Forall (fun p => free_of sep p = true) (split sep s).
Proof.
  induction s as [| c s (IHjoin & IHlen & IHfree)].
  - cbn. repeat split; [lia | repeat constructor].
  - cbn [split].
    destruct (Ascii.eqb_spec c sep) as [-> | Hc].
    + repeat split.
      * pose proof (split_nonempty sep s) as Hne.
        cbn [join]. destruct (split sep s) as [| p ps] eqn:Hs; [contradiction |].
        rewrite IHjoin. reflexivity.
      * cbn. lia.
      * constructor; [reflexivity | exact IHfree].
    + destruct (split sep s) as [| p ps] eqn:Hs; [cbn in IHlen; lia |].
      pose proof (List.Forall_inv IHfree) as Hp.
      pose proof (List.Forall_inv_tail IHfree) as Hps.
      cbn beta in Hp.
      repeat split.
      * rewrite <- IHjoin. cbn [join]. destruct ps; reflexivity.
      * cbn. lia.
      * constructor; [| exact Hps].
        cbn [free_of]. rewrite Hp.
        destruct (Ascii.eqb_spec c sep); [contradiction | reflexivity].
Qed.

(** ** Precision *)

(** X17: [_get_precision] knows the five assets ETH, USDT, MKR, BTC and
    DAI, in upper case, and raises the key error of the asset for any other
    string. *)
Theorem get_precision_supported_assets (coin : string) :
  ((exists fmt, KucoinApi._get_precision coin = Ok fmt)
   <-> In coin ["ETH"; "USDT"; "MKR"; "BTC"; "DAI"]) /\
  (~ In coin ["ETH"; "USDT"; "MKR"; "BTC"; "DAI"]
   -> KucoinApi._get_precision coin = Raise (KeyError coin)).
Proof.
  rewrite get_precision_decimal_places.
  unfold decimal_places, precision_table, places_in. cbn [In].
  repeat match goal with
         | |- context [String.eqb ?k coin] =>
             destruct (String.eqb_spec k coin) as [<- | ?];
               [split; [split; [tauto | eauto] | tauto] |]
         end.
  split; [split |].
  - intros [fmt [=]].
  - tauto.
  - reflexivity.
Qed.

Section Placing.
Context `{RT : Runtime}.
Variable remote : Client.behaviour.

(** ** Placing orders *)

(** X18: a pair without a dash has no quote asset: [place_order] fails
    with an index error and makes no remote call. *)
Theorem place_order_without_dash (self : KucoinApi.t) (pair : string) (is_sell : bool)
    (price amount : Wad) (log : list Client.call) :
  free_of "-" pair = true ->
  KucoinApi.place_order remote self pair is_sell price amount log
    = (Raise IndexError, log).
Proof.
  intros Hfree.
  unfold KucoinApi.place_order. run_io.
  rewrite (split_free _ _ Hfree). reflexivity.
Qed.

(** X19: the quote asset is looked up first: when it has no precision,
    [place_order] fails with the key error of the quote asset, whatever the
    base asset is, and makes no remote call. *)
Theorem place_order_checks_quote_first (self : KucoinApi.t) (pair : string)
    (is_sell : bool) (price amount : Wad) (log : list Client.call)
    (base quote : string) (rest : list string) :
  split "-" pair = base :: quote :: rest ->
  KucoinApi._get_precision quote = Raise (KeyError quote) ->
  KucoinApi.place_order remote self pair is_sell price amount log
    = (Raise (KeyError quote), log).
Proof.
  intros Hsplit Hquote.
  unfold KucoinApi.place_order. run_io.
  rewrite Hsplit. cbn [piece nth_error]. rewrite Hquote. reflexivity.
Qed.

(** X20: only the first two pieces of the pair are looked at: with further
    pieces after them the order is still created, under the whole pair,
    with the formats of the first two, and the [orderOid] of the answer is
    returned; a failing call or a missing [orderOid] is the failure of
    [place_order]. *)
Theorem place_order_ignores_further_pieces (self : KucoinApi.t) (pair : string)
    (is_sell : bool) (price amount : Wad) (log : list Client.call)
    (base quote : string) (rest : list string) (base_fmt quote_fmt : string) :
  split "-" pair = base :: quote :: rest ->
  KucoinApi._get_precision base = Ok base_fmt ->
  KucoinApi._get_precision quote = Ok quote_fmt ->
  let request :=
    Client.create_order pair (if is_sell then SIDE_SELL else SIDE_BUY)
      (format_percent quote_fmt (Wad_float price))
      (format_percent base_fmt (Wad_float amount)) in
  KucoinApi.place_order remote self pair is_sell price amount log
    = (answer ← remote (KucoinApi.client self) log request; getitem answer "orderOid",
       (log ++ [request])%list).
Proof.
  intros Hsplit Hbase Hquote request.
  unfold KucoinApi.place_order. run_io.
  rewrite Hsplit. cbn [piece nth_error]. rewrite Hquote, Hbase.
  fold request.
  destruct (remote (KucoinApi.client self) log request) as [answer | e]; cbn;
    [| reflexivity].
  destruct (getitem answer "orderOid"); reflexivity.
Qed.

End Placing.

(** ** The properties at work on the test double *)

(** A record of five entries is refused by both mappings. *)
Lemma short_row_is_index_error_at_5 :
  Order.from_list (RT := Stub.runtime)
    (PList [PInt 1544564527000; PStr "SELL"; PInt 26; PInt 1; PInt 26]) "ETH-DAI" true
    = Raise IndexError /\
  Trade.from_list (RT := Stub.runtime) "ETH-DAI"
    (PList [PInt 1544564527000; PStr "SELL"; PInt 26; PInt 1; PInt 26])
    = Raise IndexError.
Proof.
  apply (short_row_is_index_error (RT := Stub.runtime)). cbn. lia.
Defined.

(** 1544564527999 ms falls in second 1544564527. *)
Lemma trade_timestamp_of_lowercase_row :
  exists t : Trade.t,
    Trade.from_list (RT := Stub.runtime) "ETH-DAI" Stub.lowercase_row = Ok t /\
    1000 * Trade.timestamp t <= 1544564527999 < 1000 * Trade.timestamp t + 1000 /\
    Trade.timestamp t = 1544564527.
Proof.
  eexists. split; [reflexivity |]. split; [| reflexivity].
  eapply (trade_timestamp_is_floor_of_millis (RT := Stub.runtime) "ETH-DAI"
            Stub.lowercase_row (PInt 1544564527999)).
  - left. split; reflexivity.
  - reflexivity.
  - reflexivity.
Defined.

(** The side [sell] in lower case gives a buy. *)
Lemma trade_of_lowercase_row_is_a_buy :
  exists t : Trade.t,
    Trade.from_list (RT := Stub.runtime) "ETH-DAI" Stub.lowercase_row = Ok t /\
    (Trade.is_sell t = true <-> PStr "sell" = PStr "SELL") /\
    Trade.is_sell t = false.
Proof.
  eexists. split; [reflexivity |]. split; [| reflexivity].
  apply (trade_is_sell_iff_SELL (RT := Stub.runtime) "ETH-DAI" Stub.lowercase_row).
  left. split; reflexivity.
Defined.

(** The sample row as an order and as a trade. *)
Lemma order_and_trade_of_sample_row_agree :
  exists (o : Order.t) (t : Trade.t),
    Order.from_list (RT := Stub.runtime) Stub.positional_trade "ETH-DAI" true = Ok o /\
    Trade.from_list (RT := Stub.runtime) "ETH-DAI" Stub.positional_trade = Ok t /\
    Order.order_id o = Trade.order_id t /\
    Order.price o = Trade.price t /\
    Order.amount o = Trade.amount t /\
    Order.pair o = Trade.pair t.
Proof.
  eexists. eexists. split; [reflexivity |]. split; [reflexivity |].
  apply (order_and_trade_of_a_row_agree (RT := Stub.runtime) Stub.positional_trade
           "ETH-DAI" true); reflexivity.
Defined.

(** A numbered order maps to an order and not to a trade. *)
Lemma trade_refuses_numbered_row :
  (exists o : Order.t,
     Order.from_list (RT := Stub.runtime) Stub.numbered_row "ETH-DAI" true = Ok o /\
     Order.order_id o = PInt 4711) /\
  Trade.from_list (RT := Stub.runtime) "ETH-DAI" Stub.numbered_row = Raise AssertionError.
Proof.
  split; [eexists; split; reflexivity |].
  eapply (trade_refuses_identifier_order_accepts (RT := Stub.runtime)
            Stub.numbered_row (PInt 1544564526000) "ETH-DAI" true);
    reflexivity.
Defined.

(** The five orders of the busy client are all on the pair asked for. *)
Lemma get_orders_keeps_pair_busy :
  exists found : list Order.t,
    KucoinApi.get_orders (RT := Stub.runtime) Stub.busy Stub.kucoin "ETH-DAI" []
      = (Ok found, [Client.get_active_orders "ETH-DAI"]) /\
    length found = 5%nat /\
    Forall (fun o => Order.pair o = "ETH-DAI") found.
Proof.
  eexists. split; [reflexivity |]. split; [reflexivity |].
  eapply (get_orders_keeps_pair (RT := Stub.runtime) Stub.busy Stub.kucoin "ETH-DAI" []).
  reflexivity.
Defined.

(** The ask that lost its last field fails the whole call. *)
Lemma get_orders_fails_on_short_ask :
  KucoinApi.get_orders (RT := Stub.runtime) Stub.broken Stub.kucoin "ETH-DAI" []
    = (Raise IndexError, [Client.get_active_orders "ETH-DAI"]).
Proof.
  eapply (get_orders_fails_on_first_bad_sell (RT := Stub.runtime) Stub.broken
            Stub.kucoin "ETH-DAI" [] _
            [Stub.row 1544564526000 "SELL" 25 3 "a1"] []).
  - reflexivity.
  - reflexivity.
  - constructor; [eexists; reflexivity | constructor].
  - reflexivity.
Defined.

(** The bid without a price fails the whole call, the ask being fine. *)
Lemma get_orders_fails_on_unpriced_bid :
  KucoinApi.get_orders (RT := Stub.runtime) Stub.broken_bid Stub.kucoin "ETH-DAI" []
    = (Raise AssertionError, [Client.get_active_orders "ETH-DAI"]).
Proof.
  eapply (get_orders_fails_on_first_bad_buy (RT := Stub.runtime) Stub.broken_bid
            Stub.kucoin "ETH-DAI" [] _ _ [] []).
  - reflexivity.
  - reflexivity.
  - apply map_result_Ok. reflexivity.
  - reflexivity.
  - constructor.
  - reflexivity.
Defined.

(** An answer with bids only. *)
Lemma get_orders_missing_sell_side_one_sided :
  KucoinApi.get_orders (RT := Stub.runtime) Stub.one_sided Stub.kucoin "ETH-DAI" []
    = (Raise (KeyError "SELL"), [Client.get_active_orders "ETH-DAI"]).
Proof.
  eapply (get_orders_missing_sell_side (RT := Stub.runtime) Stub.one_sided
            Stub.kucoin "ETH-DAI" []); reflexivity.
Defined.

(** The account's one trade, as [get_trades] returns it. *)
Lemma get_trades_result_invariant_history :
  exists trades : list Trade.t,
    KucoinApi.get_trades (RT := Stub.runtime) Stub.history Stub.kucoin "ETH-DAI" 1 []
      = (Ok trades, [Client.get_symbol_dealt_orders "ETH-DAI" 0 100]) /\
    List.map Trade.trade_id trades = [PInt 77] /\
    Forall (fun t =>
              Trade.pair t = "ETH-DAI" /\
              isinstance_int (Trade.trade_id t) || is_None (Trade.trade_id t) = true /\
              isinstance_str (Trade.order_id t) || is_None (Trade.order_id t) = true)
           trades.
Proof.
  eexists. split; [reflexivity |]. split; [reflexivity |].
  eapply (get_trades_result_invariant (RT := Stub.runtime) Stub.history Stub.kucoin
            "ETH-DAI" 1 []).
  reflexivity.
Defined.

(** Page 3 is asked for as page 2. *)
Lemma get_trades_maps_every_record_history :
  exists trades : list Trade.t,
    KucoinApi.get_trades (RT := Stub.runtime) Stub.history Stub.kucoin "ETH-DAI" 3 []
      = (Ok trades, [Client.get_symbol_dealt_orders "ETH-DAI" 2 100]) /\
    length trades = 1%nat.
Proof.
  eexists.
  eapply (get_trades_maps_every_record (RT := Stub.runtime) Stub.history Stub.kucoin
            "ETH-DAI" 3 [] _ [Stub.keyed_trade]).
  - reflexivity.
  - reflexivity.
  - apply map_result_Ok. reflexivity.
Defined.

(** The public trade has no trade identifier. *)
Lemma get_all_trades_result_invariant_history :
  exists trades : list Trade.t,
    KucoinApi.get_all_trades (RT := Stub.runtime) Stub.history Stub.kucoin "ETH-DAI" 1 []
      = (Ok trades, [Client.get_recent_orders "ETH-DAI" 50]) /\
    length trades = 1%nat /\
    Forall (fun t =>
              Trade.trade_id t = PNone /\
              Trade.pair t = "ETH-DAI" /\
              isinstance_str (Trade.order_id t) || is_None (Trade.order_id t) = true)
           trades.
Proof.
  eexists. split; [reflexivity |]. split; [reflexivity |].
  eapply (get_all_trades_result_invariant (RT := Stub.runtime) Stub.history Stub.kucoin
            "ETH-DAI" 1 []).
  reflexivity.
Defined.

(** The trade of the account and the public trade of the test double. *)
Lemma public_trades_agree_with_account_trades_history :
  exists public : list Trade.t,
    KucoinApi.get_all_trades (RT := Stub.runtime) Stub.history Stub.kucoin "ETH-DAI" 1 []
      = (Ok public, [Client.get_recent_orders "ETH-DAI" 50]) /\
    List.map Trade.trade_id public = [PNone] /\
    List.map Trade.order_id public = [PStr "5c102f2d335e7e08134edd77"].
Proof.
  edestruct (public_trades_agree_with_account_trades (RT := Stub.runtime) Stub.history
               Stub.kucoin "ETH-DAI" 1 [] []
               [Client.get_symbol_dealt_orders "ETH-DAI" 0 100]
               (PDict [("datas", PList [Stub.keyed_trade])])
               [Stub.keyed_trade] [Stub.positional_trade])
    as (public & Hrun & Hagree).
  { reflexivity. }
  { reflexivity. }
  { reflexivity. }
  { constructor; [repeat split | constructor]. }
  { reflexivity. }
  exists public. split; [exact Hrun |].
  inversion Hagree as [| t u ts us (Hid & Hoid & _) Hrest]; subst.
  inversion Hrest; subst.
  cbn. rewrite Hid, Hoid. split; reflexivity.
Defined.

(** A pair written without the dash. *)
Lemma place_order_without_dash_ETHDAI :
  KucoinApi.place_order (RT := Stub.runtime) Stub.idle Stub.kucoin "ETHDAI" true
      (20 * 10 ^ 18) (3 * 10 ^ 18) []
    = (Raise IndexError, []).
Proof.
  apply (place_order_without_dash (RT := Stub.runtime)). reflexivity.
Defined.

(** With both assets unknown the error names the quote asset. *)
Lemma place_order_checks_quote_first_FOO_BAR :
  KucoinApi.place_order (RT := Stub.runtime) Stub.idle Stub.kucoin "FOO-BAR" true
      (20 * 10 ^ 18) (3 * 10 ^ 18) []
    = (Raise (KeyError "BAR"), []).
Proof.
  apply (place_order_checks_quote_first (RT := Stub.runtime) Stub.idle Stub.kucoin
           "FOO-BAR" true (20 * 10 ^ 18) (3 * 10 ^ 18) [] "FOO" "BAR" []);
    reflexivity.
Defined.

(** A pair of three pieces is sent as it is. *)
Lemma place_order_ignores_further_pieces_ETH_DAI_X :
  KucoinApi.place_order (RT := Stub.runtime) Stub.idle Stub.kucoin "ETH-DAI-X" true
      (20 * 10 ^ 18) (3 * 10 ^ 18) []
    = (Ok (PStr "5c1366ab335e7e74f25baf5d"),
       [Client.create_order "ETH-DAI-X" "SELL" "%.4f" "%.7f"]).
Proof.
  apply (place_order_ignores_further_pieces (RT := Stub.runtime) Stub.idle Stub.kucoin
           "ETH-DAI-X" true (20 * 10 ^ 18) (3 * 10 ^ 18) [] "ETH" "DAI" ["X"]
           "%.7f" "%.4f");
    reflexivity.
Defined.
